(** * financialdash2: the market dashboard of [app.py]

    A shallow embedding of the script: the five fetch functions over an
    explicit record of upstream answers, the risk scorer [risk_meter], the
    headline filter, [main] and the HTML generator.  Python floats (numpy
    float64) are the binary64 floats of [PrimFloat]; Python's unbounded
    integers are [Z]; an exception that leaves a function is the [Raise]
    branch of [result]; numpy's sort, whose order of equal keys is not
    fixed, is a parameter of the functions that reach it. *)

From Stdlib Require Import ZArith Floats.
From stdpp Require Import base option list strings gmap pretty sorting.

Set Warnings "-inexact-float".
Local Open Scope Z_scope.

(** ** Exceptions and fallible computations *)

(** The exception classes the script can meet.  [IndexError] is what pandas
    and numpy raise on [iloc[-1]] or [values[0]] of an empty table;
    [AttributeError] and [TypeError] are what Python raises on [None.iloc]
    and [None['strike']], when an options table is missing; every other
    failure comes out of yfinance or requests and is kept by the name of
    its Python class. *)
Inductive exn : Type :=
  | IndexError
  | AttributeError
  | TypeError
  | LibraryError (cls : string).

Definition exn_class (e : exn) : string :=
  match e with
  | IndexError => "IndexError"
  | AttributeError => "AttributeError"
  | TypeError => "TypeError"
  | LibraryError cls => cls
  end.

Inductive result (A : Type) : Type :=
  | Ok (a : A)
  | Raise (e : exn).
Arguments Ok {A} a.
Arguments Raise {A} e.

(** Sequencing as Python does it: the first exception raised ends the
    enclosing function, nothing in the script catches one. *)
#[export] Instance result_bind : MBind result := fun A B k c =>
  match c with
  | Ok a => k a
  | Raise e => Raise e
  end.

Definition is_ok {A : Type} (c : result A) : bool :=
  match c with Ok _ => true | Raise _ => false end.

(** ** Risk scoring *)

Module Risk.

(** [risk_meter], statement by statement: [points] is the running total and
    each [if] block rebinds it. *)
Definition risk_meter (spreads : float * float) (vix_struct : float * float * float)
    (expected_move premium_discount : float) : Z :=
  let points := 0 in
  let '(spread_2s5s, spread_2s10s) := spreads in
  let '(vix, vix9d, term_structure) := vix_struct in
  (* Yield Curve *)
  let points := if (0 <? spread_2s10s)%float then points + 1 else points - 1 in
  (* VIX Term Structure *)
  let points := if (0 <? term_structure)%float then points + 1 else points - 1 in
  (* Expected Move *)
  let points := if (expected_move <? 5)%float then points + 1 else points - 1 in
  (* ES Fair Value *)
  let points := if (0 <? premium_discount)%float then points + 1 else points - 1 in
  points.

(** The label both [main] (console line) and [generate_html] (report line)
    print next to the score: ['Risk-On' if risk_score > 0 else 'Risk-Off']. *)
Definition risk_label (risk_score : Z) : string :=
  if 0 <? risk_score then "Risk-On" else "Risk-Off".

(** The running total cut at one sub-signal: the value of [points] after the
    first [n] blocks of [risk_meter]. *)
Definition points_after (n : nat) (spread_2s10s term_structure expected_move
    premium_discount : float) : Z :=
  let blocks : list (Z -> Z) :=
    [ (fun points => if (0 <? spread_2s10s)%float then points + 1 else points - 1);
      (fun points => if (0 <? term_structure)%float then points + 1 else points - 1);
      (fun points => if (expected_move <? 5)%float then points + 1 else points - 1);
      (fun points => if (0 <? premium_discount)%float then points + 1 else points - 1) ] in
  foldl (fun points block => block points) 0 (take n blocks).

(** What block [n] (0-based) added to the running total. *)
Definition contribution (n : nat) (spread_2s10s term_structure expected_move
    premium_discount : float) : Z :=
  points_after (S n) spread_2s10s term_structure expected_move premium_discount
  - points_after n spread_2s10s term_structure expected_move premium_discount.

(** The four rules as the specification tabulates them. *)
Definition plus_or_minus (condition : bool) : Z := if condition then 1 else -1.

End Risk.

Export Risk.

(** ** The upstream data boundary *)

Module Upstream.

(** One line of an options table: the columns the script reads. *)
Record row : Type := { strike : float; lastPrice : float }.

(** What the outside world answers during one run.  Every query of the
    script is made once, so an answer per query is the whole state.
    - [history sym]: the ['Close'] column of
      [yf.Ticker(sym).history(period="1d")], one entry per session row;
    - [option_chain sym]: the calls and puts tables of
      [yf.Ticker(sym).option_chain()], each [None] where yfinance has no
      table to give;
    - [h3_texts url]: [get_text()] of each [h3] element of the document
      that [requests.get(url)] returns, in document order. *)
Record t : Type := {
  history : string -> result (list float);
  option_chain : string -> result (option (list row) * option (list row));
  h3_texts : string -> result (list string);
}.

End Upstream.

Export Upstream.

(** ** pandas and numpy operations the fetchers use *)

Module Frame.

(** [df.iloc[-1]]: the last row, [IndexError] on an empty frame. *)
Definition iloc_last {A : Type} (rows : list A) : result A :=
  match last rows with
  | Some x => Ok x
  | None => Raise IndexError
  end.

(** [arr.values[0]]: the first entry, [IndexError] on an empty array. *)
Definition values_0 {A : Type} (values : list A) : result A :=
  match values with
  | x :: _ => Ok x
  | [] => Raise IndexError
  end.

(** [table.iloc], an attribute of the table: [AttributeError] on [None]. *)
Definition frame_attr {A : Type} (table : option A) : result A :=
  match table with
  | Some rows => Ok rows
  | None => Raise AttributeError
  end.

(** [table['strike']], a subscript of the table: [TypeError] on [None]. *)
Definition frame_item {A : Type} (table : option A) : result A :=
  match table with
  | Some rows => Ok rows
  | None => Raise TypeError
  end.

(** [df.iloc[positions]] for the one position the script takes from
    [argsort]; a position outside the table leaves nothing for
    [values[0]]. *)
Definition iloc {A : Type} (rows : list A) (positions : list nat) : list A :=
  omap (fun i => rows !! i) positions.

(** The order numpy sorts floats by: [<], with every NaN after every
    number. *)
Definition np_lt (a b : float) : bool :=
  (a <? b)%float || (negb (is_nan a) && is_nan b).

(** No key is NaN. *)
Definition no_nan (keys : list float) : bool :=
  forallb (fun k => negb (is_nan k)) keys.

(** [series.argsort()] is numpy's sort.  The script calls it with the
    default kind, which is not stable: where several keys are equal, which
    of their positions comes first is the library's choice and differs
    between builds.  So the sort is a parameter of the fetch, and what is
    known of it is the contract: on keys without NaN it returns the
    positions [0 .. n-1], each once, in an order along which the keys do
    not go down.  (With a NaN key pandas before 3.0 marks positions -1,
    later versions put them last; the contract leaves them out.) *)
Definition ascending (keys : list float) (positions : list nat) : Prop :=
  forall (i j p q : nat) (kp kq : float),
    (i < j)%nat ->
    positions !! i = Some p -> positions !! j = Some q ->
    keys !! p = Some kp -> keys !! q = Some kq ->
    (kq <? kp)%float = false.

Definition sorts (argsort : list float -> list nat) : Prop :=
  forall keys : list float,
    no_nan keys = true ->
    argsort keys ≡ₚ seq 0 (length keys) /\ ascending keys (argsort keys).

End Frame.

Export Frame.

(** ** Settings *)

Definition HIGH_IMPACT_KEYWORDS : list string :=
  ["Fed"; "CPI"; "Jobs"; "Powell"; "inflation"; "unemployment"; "GDP"].

(** ** Data fetch *)

Module Fetch.

(** [yf.Ticker(sym).history(period="1d").iloc[-1]['Close']] *)
Definition last_close (w : Upstream.t) (sym : string) : result float :=
  closes ← history w sym;
  iloc_last closes.

Definition get_treasury_spreads (w : Upstream.t) : result (float * float) :=
  tnx_close ← last_close w "^TNX";
  let tnx := (tnx_close / 100)%float in
  fvx_close ← last_close w "^FVX";
  let fvxt := (fvx_close / 100)%float in
  irx_close ← last_close w "^IRX";
  let twxt := (irx_close / 100)%float in
  let spread_2s5s := (twxt - fvxt)%float in
  let spread_2s10s := (twxt - tnx)%float in
  Ok (spread_2s5s, spread_2s10s).

Definition get_vix_structure (w : Upstream.t) : result (float * float * float) :=
  vix ← last_close w "^VIX";
  vix9d ← last_close w "^VIX9D";
  let term_structure := (vix9d - vix)%float in
  Ok (vix, vix9d, term_structure).

(** [(calls['strike'] - underlying_price).abs()] *)
Definition strike_distances (calls : list row) (underlying_price : float) : list float :=
  (fun r => abs (strike r - underlying_price)%float) <$> calls.

(** [table[table['strike'] == atm_strike]['lastPrice']] *)
Definition lastPrice_at (table : list row) (atm_strike : float) : list float :=
  lastPrice <$> List.filter (fun r => (strike r =? atm_strike)%float) table.

Definition get_expected_move (argsort : list float -> list nat) (w : Upstream.t)
  : result (float * float) :=
  options ← option_chain w "SPY";
  let calls := options.1 in
  let puts := options.2 in
  underlying_price ← last_close w "SPY";
  calls_frame ← frame_attr calls;
  atm_strike ←
    values_0 (strike <$> iloc calls_frame
                (take 1 (argsort (strike_distances calls_frame underlying_price))));
  call_price ← values_0 (lastPrice_at calls_frame atm_strike);
  puts_frame ← frame_item puts;
  put_price ← values_0 (lastPrice_at puts_frame atm_strike);
  let expected_move := (call_price + put_price)%float in
  Ok (expected_move, atm_strike).

Definition get_fair_value (w : Upstream.t) : result float :=
  es ← last_close w "ES=F";
  spx ← last_close w "^GSPC";
  let premium_discount := (es - spx)%float in
  Ok premium_discount.

(** Python's [keyword in text] on strings: [keyword] occurs somewhere in
    [text], character for character. *)
Fixpoint str_in (keyword text : string) : bool :=
  String.prefix keyword text
  || match text with
     | EmptyString => false
     | String _ rest => str_in keyword rest
     end.

(** [any(keyword in text for keyword in keywords)] *)
Definition any_keyword_in (keywords : list string) (text : string) : bool :=
  existsb (fun keyword => str_in keyword text) keywords.

(** The loop of [fetch_headlines] over the [h3] texts: [headlines] starts
    empty and each kept text is appended at its end. *)
Definition keep_headlines (keywords : list string) (items : list string) : list string :=
  foldl (fun headlines text =>
           if any_keyword_in keywords text then headlines ++ [text] else headlines)
        [] items.

Definition fetch_headlines (w : Upstream.t) : result (list string) :=
  let url := "https://finance.yahoo.com/" in
  items ← h3_texts w url;
  Ok (keep_headlines HIGH_IMPACT_KEYWORDS items).

End Fetch.

Export Fetch.

(** ** Main run *)

(** What [main] hands to the console and to [generate_html]: the [data]
    dictionary, the score with its label, and the headlines. *)
Record report : Type := {
  data : gmap string float;
  risk_score : Z;
  label : string;
  headlines : list string;
}.

Definition main (argsort : list float -> list nat) (w : Upstream.t) : result report :=
  spreads ← get_treasury_spreads w;
  vix_struct ← get_vix_structure w;
  '(expected_move, atm_strike) ← get_expected_move argsort w;
  premium_discount ← get_fair_value w;
  headlines ← fetch_headlines w;
  let data : gmap string float :=
    <["spread_2s5s" := spreads.1]> (
    <["spread_2s10s" := spreads.2]> (
    <["vix" := vix_struct.1.1]> (
    <["vix9d" := vix_struct.1.2]> (
    <["term_structure" := vix_struct.2]> (
    <["expected_move" := expected_move]> (
    <["atm_strike" := atm_strike]> (
    <["premium_discount" := premium_discount]> ∅))))))) in
  let risk_score := risk_meter spreads vix_struct expected_move premium_discount in
  Ok {| data := data; risk_score := risk_score;
        label := risk_label risk_score; headlines := headlines |}.

(** The exception that ends [main]: the one of the first fetch, in call
    order, that raises. *)
Definition first_failure (argsort : list float -> list nat) (w : Upstream.t)
  : option exn :=
  match get_treasury_spreads w with
  | Raise e => Some e
  | Ok _ =>
    match get_vix_structure w with
    | Raise e => Some e
    | Ok _ =>
      match get_expected_move argsort w with
      | Raise e => Some e
      | Ok _ =>
        match get_fair_value w with
        | Raise e => Some e
        | Ok _ =>
          match fetch_headlines w with
          | Raise e => Some e
          | Ok _ => None
          end
        end
      end
    end
  end.

(** ** Counting the signals *)

(** How many of the four conditions of [risk_meter] hold. *)
Definition signals_on (spread_2s10s term_structure expected_move premium_discount : float)
  : nat :=
  length (List.filter id
    [ (0 <? spread_2s10s)%float; (0 <? term_structure)%float;
      (expected_move <? 5)%float; (0 <? premium_discount)%float ]).

(** ** HTML generator *)

Module Html.

(** A dictionary subscript [data[key]] either gives the value or raises
    [KeyError] with the key. *)
Inductive keyed (A : Type) : Type :=
  | Got (a : A)
  | KeyError (key : string).
Arguments Got {A} a.
Arguments KeyError {A} key.

#[export] Instance keyed_bind : MBind keyed := fun A B k c =>
  match c with
  | Got a => k a
  | KeyError key => KeyError key
  end.

Definition getitem (data : gmap string float) (key : string) : keyed float :=
  match data !! key with
  | Some x => Got x
  | None => KeyError key
  end.

(** How Python turns the values of the replacement fields into text:
    [str_TODAY] is [f"{TODAY}"], [format_2f x] is [f"{x:.2f}"] and
    [str_float x] is [f"{x}"]; the integer score is written in decimal. *)
Record formats : Type := {
  str_TODAY : string;
  format_2f : float -> string;
  str_float : float -> string;
}.

Definition nl : string := String (Ascii.ascii_of_nat 10) EmptyString.

(** The list entry the loop of [generate_html] appends for one headline. *)
Definition li (hl : string) : string := "<li>" +:+ hl +:+ "</li>".

(** The text after the loop, from the closing [</ul>] on. *)
Definition closing : string :=
  nl +:+ "    </ul>" +:+ nl +:+ "    </body>" +:+ nl +:+ "    </html>" +:+ nl +:+ "    ".

(** [generate_html], up to the text it writes to [dashboard_report.html]:
    the replacement fields are evaluated from left to right, so the first
    key that [data] lacks is the one [KeyError] names. *)
Definition generate_html (fm : formats) (data : gmap string float) (risk_score : Z)
    (headlines : list string) : keyed string :=
  spread_2s5s ← getitem data "spread_2s5s";
  spread_2s10s ← getitem data "spread_2s10s";
  vix ← getitem data "vix";
  vix9d ← getitem data "vix9d";
  term_structure ← getitem data "term_structure";
  expected_move ← getitem data "expected_move";
  atm_strike ← getitem data "atm_strike";
  premium_discount ← getitem data "premium_discount";
  let html :=
    nl +:+ "    <html>" +:+ nl
    +:+ "    <head><title>Financial Dashboard Report - " +:+ str_TODAY fm
    +:+ "</title></head>" +:+ nl
    +:+ "    <body>" +:+ nl
    +:+ "    <h1>Financial Dashboard - " +:+ str_TODAY fm +:+ "</h1>" +:+ nl
    +:+ "    <h2>Macro Overview</h2>" +:+ nl
    +:+ "    <ul>" +:+ nl
    +:+ "        <li>2s5s Spread: " +:+ format_2f fm spread_2s5s +:+ "%</li>" +:+ nl
    +:+ "        <li>2s10s Spread: " +:+ format_2f fm spread_2s10s +:+ "%</li>" +:+ nl
    +:+ "    </ul>" +:+ nl
    +:+ "    <h2>Volatility</h2>" +:+ nl
    +:+ "    <ul>" +:+ nl
    +:+ "        <li>VIX: " +:+ format_2f fm vix +:+ "</li>" +:+ nl
    +:+ "        <li>VIX9D: " +:+ format_2f fm vix9d +:+ "</li>" +:+ nl
    +:+ "        <li>VIX Term Structure (9D-VIX): " +:+ format_2f fm term_structure
    +:+ "</li>" +:+ nl
    +:+ "        <li>Expected Move (ATM Straddle SPY): $" +:+ format_2f fm expected_move
    +:+ " (Strike: " +:+ str_float fm atm_strike +:+ ")</li>" +:+ nl
    +:+ "    </ul>" +:+ nl
    +:+ "    <h2>Market Position</h2>" +:+ nl
    +:+ "    <ul>" +:+ nl
    +:+ "        <li>ES Futures Premium/Discount: " +:+ format_2f fm premium_discount
    +:+ "</li>" +:+ nl
    +:+ "    </ul>" +:+ nl
    +:+ "    <h2>Risk Meter</h2>" +:+ nl
    +:+ "    <p><strong>Risk Score: " +:+ pretty risk_score +:+ "</strong> ("
    +:+ risk_label risk_score +:+ ")</p>" +:+ nl
    +:+ "    <h2>High Impact News</h2>" +:+ nl
    +:+ "    <ul>" +:+ nl
    +:+ "    " in
  let html := foldl (fun html hl => html +:+ li hl) html headlines in
  let html := html +:+ closing in
  Got html.

(** The line of the report that carries the score and its label, followed
    by [rest]. *)
Definition score_line (risk_score : Z) (rest : string) : string :=
  "    <p><strong>Risk Score: " +:+ pretty risk_score +:+ "</strong> ("
  +:+ risk_label risk_score +:+ ")</p>" +:+ rest.

(** The list entries of the headlines, one after the other, followed by
    [rest]. *)
Definition list_items (headlines : list string) (rest : string) : string :=
  foldr (fun hl rest => li hl +:+ rest) rest headlines.

(** The keys [generate_html] subscripts, in the order it reads them. *)
Definition html_keys : list string :=
  [ "spread_2s5s"; "spread_2s10s"; "vix"; "vix9d"; "term_structure";
    "expected_move"; "atm_strike"; "premium_discount" ].

End Html.

Export Html.

(** ** The order behind numpy's comparison *)

Module Order.

(** A float by its place on the line numpy sorts along: the sign class
    first (-inf, negative, zero, positive, +inf, NaN), then exponent and
    mantissa, both counted downwards for a negative number. *)
Definition rank (s : spec_float) : Z * Z * Z :=
  match s with
  | S754_infinity true => (-2, 0, 0)
  | S754_finite true m e => (-1, - e, - Z.pos m)
  | S754_zero _ => (0, 0, 0)
  | S754_finite false m e => (1, e, Z.pos m)
  | S754_infinity false => (2, 0, 0)
  | S754_nan => (3, 0, 0)
  end.

Definition lex_lt (p q : Z * Z * Z) : Prop :=
  p.1.1 < q.1.1
  \/ (p.1.1 = q.1.1 /\ (p.1.2 < q.1.2 \/ (p.1.2 = q.1.2 /\ p.2 < q.2))).

End Order.

Export Order.

(** ** Sample runs *)

Module Sample.

Definition quotes (table : list (string * list float)) (sym : string)
  : result (list float) :=
  Ok (default [] (snd <$> List.find (fun entry => String.eqb entry.1 sym) table)).

Definition calls_of_calm : list row :=
  [ {| strike := 445; lastPrice := 7.1 |};
    {| strike := 450; lastPrice := 2 |};
    {| strike := 455; lastPrice := 0.6 |} ].

Definition puts_of_calm : list row :=
  [ {| strike := 445; lastPrice := 0.5 |};
    {| strike := 450; lastPrice := 2.1 |};
    {| strike := 455; lastPrice := 6.2 |} ].

(** Two sorts that meet the contract: an insertion sort that leaves equal
    keys in position order, and the same sort run over the positions from
    the last to the first, which leaves equal keys in the opposite order. *)
Fixpoint insert_key (p : float * nat) (sorted : list (float * nat)) : list (float * nat) :=
  match sorted with
  | [] => [p]
  | q :: rest => if np_lt q.1 p.1 then q :: insert_key p rest else p :: sorted
  end.

Definition ties_first_argsort (keys : list float) : list nat :=
  (foldr insert_key [] (zip keys (seq 0 (length keys)))).*2.

Definition ties_last_argsort (keys : list float) : list nat :=
  (foldr insert_key [] (reverse (zip keys (seq 0 (length keys))))).*2.

(** An ordinary session: every query answers. *)
Definition calm : Upstream.t := {|
  history := quotes
    [ ("^TNX", [4.25%float]); ("^FVX", [3.9%float]); ("^IRX", [4.6%float]);
      ("^VIX", [15%float]); ("^VIX9D", [16.5%float]);
      ("SPY", [450.3%float]);
      ("ES=F", [4510.25%float]); ("^GSPC", [4500%float]) ];
  option_chain := fun _ => Ok (Some calls_of_calm, Some puts_of_calm);
  h3_texts := fun _ =>
    Ok ["Fed holds rates"; "Ten recipes for autumn"; "CPI surprise lifts yields";
        "fed watchers split"];
|}.

Definition set_history (sym : string) (answer : result (list float))
    (w : Upstream.t) : Upstream.t :=
  {| history := fun s => if String.eqb s sym then answer else history w s;
     option_chain := option_chain w;
     h3_texts := h3_texts w |}.

Definition set_option_chain (answer : result (option (list row) * option (list row)))
    (w : Upstream.t) : Upstream.t :=
  {| history := history w;
     option_chain := fun _ => answer;
     h3_texts := h3_texts w |}.

Definition set_h3_texts (answer : result (list string)) (w : Upstream.t) : Upstream.t :=
  {| history := history w;
     option_chain := option_chain w;
     h3_texts := fun _ => answer |}.

(** The volatility index has no session row. *)
Definition vix_down : Upstream.t := set_history "^VIX" (Ok []) calm.

(** There is no options chain: yfinance answers with no tables. *)
Definition no_chain : Upstream.t := set_option_chain (Ok (None, None)) calm.

(** The options chain comes back with empty tables. *)
Definition empty_chain : Upstream.t := set_option_chain (Ok (Some [], Some [])) calm.

(** The calls table is there, the puts table is not. *)
Definition no_puts : Upstream.t :=
  set_option_chain (Ok (Some calls_of_calm, None)) calm.

(** Four strikes, the close half way between the last two. *)
Definition calls_of_tied : list row :=
  [ {| strike := 400; lastPrice := 20 |};
    {| strike := 405; lastPrice := 16 |};
    {| strike := 410; lastPrice := 13 |};
    {| strike := 415; lastPrice := 24 |} ].

Definition puts_of_tied : list row :=
  [ {| strike := 400; lastPrice := 11 |};
    {| strike := 405; lastPrice := 15 |};
    {| strike := 410; lastPrice := 20 |};
    {| strike := 415; lastPrice := 20 |} ].

Definition tied : Upstream.t :=
  set_history "SPY" (Ok [412.5%float])
    (set_option_chain (Ok (Some calls_of_tied, Some puts_of_tied)) calm).

(** The news page cannot be reached. *)
Definition news_down : Upstream.t :=
  set_h3_texts (Raise (LibraryError "ConnectionError")) calm.

(** Nothing answers. *)
Definition all_down : Upstream.t := {|
  history := fun _ => Ok [];
  option_chain := fun _ => Ok (None, None);
  h3_texts := fun _ => Raise (LibraryError "ConnectionError");
|}.

(** The underlying closed half way between two strikes. *)
Definition between_strikes : Upstream.t := set_history "SPY" (Ok [452.5%float]) calm.

(** The ordinary session with another front page. *)
Definition other_news : Upstream.t :=
  set_h3_texts (Ok ["Powell speaks at noon"; "GDP beats forecasts"]) calm.

(** The short volatility index closed where the long one did. *)
Definition flat_vix : Upstream.t := set_history "^VIX9D" (Ok [15%float]) calm.

(** One way of writing the replacement fields, for running the generator. *)
Definition fixed_formats : formats :=
  {| str_TODAY := "2026-01-05";
     format_2f := fun _ => "0.00";
     str_float := fun _ => "0.0" |}.

(** What [main] reports on the ordinary session. *)
Definition calm_report : report :=
  match main ties_first_argsort calm with
  | Ok r => r
  | Raise _ => {| data := ∅; risk_score := 0; label := EmptyString; headlines := [] |}
  end.

Definition other_news_report : report :=
  match main ties_first_argsort other_news with
  | Ok r => r
  | Raise _ => calm_report
  end.

End Sample.

(** * Properties *)

(** ** Floats: NaN and the sorting order *)

Section FloatOrder.

Lemma is_nan_spec (x : float) : is_nan x = true <-> Prim2SF x = S754_nan.
Proof.
  unfold is_nan. rewrite FloatAxioms.eqb_spec. unfold SFeqb.
  destruct (Prim2SF x) as [s| s| |s m e]; cbn.
  - done.
  - by destruct s.
  - done.
  - destruct s; rewrite Z.compare_refl, Pos.compare_cont_refl; done.
Qed.

Lemma np_lt_rank (a b : float) :
  np_lt a b = true <-> lex_lt (rank (Prim2SF a)) (rank (Prim2SF b)).
Proof.
  unfold np_lt. rewrite orb_true_iff, andb_true_iff, negb_true_iff.
  rewrite <- not_true_iff_false, !is_nan_spec, FloatAxioms.ltb_spec.
  unfold SFltb, SFcompare, lex_lt.
  destruct (Prim2SF a) as [sa|sa| |sa ma ea], (Prim2SF b) as [sb|sb| |sb mb eb];
    try destruct sa; try destruct sb; cbn.
  all: try (split; [intros [?|[? ?]]; (done || lia) | intros ?; (tauto || (left; reflexivity) || (right; done) || lia)]).
  all: rewrite ?Pos.compare_cont_spec; cbn.
  all: destruct (Z.compare_spec ea eb); cbn.
  all: try destruct (Pos.compare_spec ma mb); cbn.
  all: try (split; [intros [?|[? ?]]; (done || lia) | intros ?; (tauto || (left; reflexivity) || (right; done) || lia)]).
Qed.

Lemma np_lt_irrefl (a : float) : np_lt a a = false.
Proof.
  apply not_true_iff_false. rewrite np_lt_rank. unfold lex_lt. lia.
Qed.

Lemma np_lt_asym (a b : float) : np_lt a b = true -> np_lt b a = false.
Proof.
  intros Hab. apply not_true_iff_false. revert Hab.
  rewrite !np_lt_rank. unfold lex_lt. lia.
Qed.

Lemma np_lt_not_trans (a b c : float) :
  np_lt a b = false -> np_lt b c = false -> np_lt a c = false.
Proof.
  rewrite <- !not_true_iff_false, !np_lt_rank. unfold lex_lt. lia.
Qed.

Lemma np_lt_true_ltb (a b : float) :
  is_nan b = false -> np_lt a b = true -> (a <? b)%float = true.
Proof.
  unfold np_lt. intros ->. by rewrite andb_false_r, orb_false_r.
Qed.

Lemma np_lt_false_ltb (a b : float) : np_lt a b = false -> (a <? b)%float = false.
Proof. unfold np_lt. by intros [? _]%orb_false_iff. Qed.

Lemma is_nan_sub (x y : float) :
  is_nan x || is_nan y = true -> is_nan (x - y) = true.
Proof.
  rewrite orb_true_iff, !is_nan_spec, sub_spec. unfold SF64sub, SFsub.
  intros [-> | ->]; [done|]. by destruct (Prim2SF x).
Qed.

Lemma nan_compares_false (x : float) :
  is_nan x = true -> (0 <? x)%float = false /\ (x <? 5)%float = false.
Proof.
  rewrite is_nan_spec, !ltb_spec. unfold SFltb, SFcompare. intros ->.
  split; [by destruct (Prim2SF 0)|done].
Qed.

End FloatOrder.

(** ** argsort: what the contract gives, and two sorts that meet it *)

Section Argsort.

(** The first position a sort returns holds a smallest key. *)
Lemma sorts_first (argsort : list float -> list nat) (keys : list float) :
  sorts argsort ->
  no_nan keys = true ->
  keys <> [] ->
  exists p k,
    take 1 (argsort keys) = [p]
    /\ keys !! p = Some k
    /\ (forall j kj, keys !! j = Some kj -> (kj <? k)%float = false).
Proof.
  intros Hsorts Hnum Hne. destruct (Hsorts keys Hnum) as [Hperm Hasc].
  destruct (argsort keys) as [|p rest] eqn:Hsorted.
  { apply Permutation_length in Hperm. rewrite length_seq in Hperm.
    destruct keys; [done | discriminate Hperm]. }
  assert (p ∈ seq 0 (length keys)) as Hp by (rewrite <- Hperm; left).
  apply elem_of_seq in Hp as [_ Hp].
  destruct (lookup_lt_is_Some_2 keys p) as [k Hk]; [lia|].
  exists p, k. split; [done|]. split; [done|]. intros j kj Hj.
  assert (j ∈ p :: rest) as Hin.
  { rewrite Hperm. apply elem_of_seq. apply lookup_lt_Some in Hj. lia. }
  apply list_elem_of_lookup in Hin as [[|i] Hi].
  - injection Hi as ->. rewrite Hj in Hk. injection Hk as ->.
    apply np_lt_false_ltb, np_lt_irrefl.
  - apply (Hasc 0%nat (S i) p j k kj); (done || lia).
Qed.

Abbreviation by_key := (fun p q : float * nat => np_lt q.1 p.1 = false).

Lemma insert_key_Permutation (p : float * nat) (l : list (float * nat)) :
  Sample.insert_key p l ≡ₚ p :: l.
Proof.
  induction l as [|q l IH]; [done|]. cbn. destruct (np_lt q.1 p.1); [|done].
  rewrite IH. apply Permutation_swap.
Qed.

Lemma insertion_Permutation (l : list (float * nat)) :
  foldr Sample.insert_key [] l ≡ₚ l.
Proof.
  induction l as [|p l IH]; [done|]. cbn. by rewrite insert_key_Permutation, IH.
Qed.

Lemma insert_key_sorted (p : float * nat) (l : list (float * nat)) :
  StronglySorted by_key l -> StronglySorted by_key (Sample.insert_key p l).
Proof.
  induction l as [|q l IH]; intros Hsorted; cbn.
  - repeat constructor.
  - apply StronglySorted_cons in Hsorted as [Hq Hl].
    destruct (np_lt q.1 p.1) eqn:Hlt.
    + apply StronglySorted_cons. split; [|by apply IH].
      rewrite insert_key_Permutation. constructor; [|done].
      by apply np_lt_asym.
    + apply StronglySorted_cons. split; [|by apply StronglySorted_cons].
      constructor; [done|]. eapply Forall_impl; [exact Hq|].
      intros x Hx. by apply (np_lt_not_trans _ q.1).
Qed.

Lemma insertion_sorted (l : list (float * nat)) :
  StronglySorted by_key (foldr Sample.insert_key [] l).
Proof.
  induction l as [|p l IH]; cbn; [constructor | by apply insert_key_sorted].
Qed.

Lemma StronglySorted_lookup_lt {A : Type} (R : relation A) (l : list A)
    (i j : nat) (x y : A) :
  StronglySorted R l -> (i < j)%nat -> l !! i = Some x -> l !! j = Some y -> R x y.
Proof.
  intros Hsorted. revert i j.
  induction Hsorted as [|z l Hl IH Hz]; intros i j Hij Hi Hj; [done|].
  destruct i as [|i], j as [|j]; try lia; cbn in Hi, Hj.
  - injection Hi as ->. rewrite Forall_forall in Hz.
    by eapply Hz, list_elem_of_lookup_2.
  - apply (IH i j); (done || lia).
Qed.

(** Sorted pairs of a key and its position give a sort of the positions. *)
Lemma sorted_pairs_sort (keys : list float) (pairs : list (float * nat)) :
  pairs ≡ₚ zip keys (seq 0 (length keys)) ->
  StronglySorted by_key pairs ->
  pairs.*2 ≡ₚ seq 0 (length keys) /\ ascending keys pairs.*2.
Proof.
  intros Hperm Hsorted. split.
  - rewrite Hperm, snd_zip; [done|]. by rewrite length_seq.
  - intros i j p q kp kq Hij Hi Hj Hp Hq.
    rewrite list_lookup_fmap in Hi, Hj.
    destruct (pairs !! i) as [[k1 p1]|] eqn:Hpi; [|done].
    destruct (pairs !! j) as [[k2 q1]|] eqn:Hpj; [|done].
    cbn in Hi, Hj. injection Hi as ->. injection Hj as ->.
    pose proof (StronglySorted_lookup_lt _ _ _ _ _ _ Hsorted Hij Hpi Hpj) as Hle.
    cbn in Hle.
    assert (forall k n, (k, n) ∈ pairs -> keys !! n = Some k) as Hkey.
    { intros k n Hin. rewrite Hperm in Hin.
      apply list_elem_of_lookup in Hin as [m Hm].
      apply lookup_zip_with_Some in Hm as (k' & n' & [= <- <-] & Hk & Hn).
      apply lookup_seq in Hn as [-> _]. done. }
    apply list_elem_of_lookup_2 in Hpi, Hpj.
    apply Hkey in Hpi, Hpj. rewrite Hp in Hpi. rewrite Hq in Hpj.
    injection Hpi as ->. injection Hpj as ->. by apply np_lt_false_ltb.
Qed.

Lemma ties_first_argsort_sorts : sorts Sample.ties_first_argsort.
Proof.
  intros keys _. apply sorted_pairs_sort.
  - apply insertion_Permutation.
  - apply insertion_sorted.
Qed.

Lemma ties_last_argsort_sorts : sorts Sample.ties_last_argsort.
Proof.
  intros keys _. apply sorted_pairs_sort.
  - rewrite insertion_Permutation. apply reverse_Permutation.
  - apply insertion_sorted.
Qed.

(** The two sorts order equal keys differently. *)
Example two_sorts_of_equal_keys :
  Sample.ties_first_argsort [12.5; 7.5; 2.5; 2.5]%float = [2; 3; 1; 0]%nat
  /\ Sample.ties_last_argsort [12.5; 7.5; 2.5; 2.5]%float = [3; 2; 1; 0]%nat.
Proof. split; reflexivity. Qed.

End Argsort.

(** ** The scorer *)

Section Scorer.

Implicit Types (spreads : float * float) (vix_struct : float * float * float).
Implicit Types (em pd : float).

Lemma risk_meter_points_after (s5 s10 v v9 ts : float) em pd :
  risk_meter (s5, s10) (v, v9, ts) em pd = points_after 4 s10 ts em pd.
Proof. reflexivity. Qed.

Lemma contribution_cases (n : nat) (s10 ts : float) em pd :
  (n < 4)%nat ->
  contribution n s10 ts em pd = 1 \/ contribution n s10 ts em pd = -1.
Proof.
  intros Hn. unfold contribution, points_after.
  destruct n as [|[|[|[|n]]]]; [| | | | lia]; cbn;
    destruct (0 <? s10)%float, (0 <? ts)%float, (em <? 5)%float, (0 <? pd)%float;
    lia.
Qed.

Example scenario_A :
  risk_meter (0.5, 0.15)%float (16, 16.8, 0.8)%float 4.20%float 1.5%float = 4
  /\ risk_label 4 = "Risk-On".
Proof. split; reflexivity. Qed.

Example scenario_B :
  risk_meter (0.1, -0.40)%float (16, 14.9, -1.1)%float 7.0%float (-0.3)%float = -4
  /\ risk_label (-4) = "Risk-Off".
Proof. split; reflexivity. Qed.

(** C1: when all four fields hold a reading, the score is the sum of four
    contributions fixed independently of one another: +1 if
    rateSpread2s10s > 0 else -1, +1 if volTermStructure > 0 else -1, +1 if
    expectedMove < 5 else -1, +1 if futuresBasis > 0 else -1. *)
Theorem risk_meter_sum_of_four (s5 s10 v v9 ts : float) em pd :
  risk_meter (s5, s10) (v, v9, ts) em pd
  = plus_or_minus (0 <? s10)%float + plus_or_minus (0 <? ts)%float
    + plus_or_minus (em <? 5)%float + plus_or_minus (0 <? pd)%float
  /\ contribution 0 s10 ts em pd = plus_or_minus (0 <? s10)%float
  /\ contribution 1 s10 ts em pd = plus_or_minus (0 <? ts)%float
  /\ contribution 2 s10 ts em pd = plus_or_minus (em <? 5)%float
  /\ contribution 3 s10 ts em pd = plus_or_minus (0 <? pd)%float.
Proof.
  unfold risk_meter, contribution, points_after, plus_or_minus; cbn.
  destruct (0 <? s10)%float, (0 <? ts)%float, (em <? 5)%float, (0 <? pd)%float;
    repeat split; reflexivity.
Qed.

(** C9: whatever the scorer is given, its score is one of -4, -2, 0, 2, 4:
    each of the four blocks adds exactly +1 or -1, so the total is even and
    an odd score such as +3 cannot come out. *)
Theorem risk_meter_even_score spreads vix_struct em pd :
  risk_meter spreads vix_struct em pd ∈ [-4; -2; 0; 2; 4]
  /\ Z.even (risk_meter spreads vix_struct em pd) = true
  /\ risk_meter spreads vix_struct em pd <> 3
  /\ (forall n, (n < 4)%nat ->
        contribution n spreads.2 vix_struct.2 em pd = 1
        \/ contribution n spreads.2 vix_struct.2 em pd = -1).
Proof.
  destruct spreads as [s5 s10], vix_struct as [[v v9] ts].
  split; [|split; [|split]].
  - unfold risk_meter.
    destruct (0 <? s10)%float, (0 <? ts)%float, (em <? 5)%float, (0 <? pd)%float;
      cbn; set_solver.
  - unfold risk_meter.
    destruct (0 <? s10)%float, (0 <? ts)%float, (em <? 5)%float, (0 <? pd)%float;
      reflexivity.
  - unfold risk_meter.
    destruct (0 <? s10)%float, (0 <? ts)%float, (em <? 5)%float, (0 <? pd)%float;
      cbn; lia.
  - intros n Hn. by apply contribution_cases.
Qed.

(** C10: two inputs that agree on rateSpread2s10s, volTermStructure,
    expectedMove and futuresBasis get the same score, however they differ in
    rateSpread2s5s, vix and vix9d. *)
Theorem risk_meter_ignores_2s5s_and_levels spreads spreads' vix_struct vix_struct'
    em (em' : float) pd (pd' : float) :
  spreads.2 = spreads'.2 ->
  vix_struct.2 = vix_struct'.2 ->
  em = em' ->
  pd = pd' ->
  risk_meter spreads vix_struct em pd = risk_meter spreads' vix_struct' em' pd'.
Proof.
  destruct spreads as [s5 s10], spreads' as [s5' s10'].
  destruct vix_struct as [[v v9] ts], vix_struct' as [[v' v9'] ts'].
  cbn. by intros -> -> -> ->.
Qed.

Lemma risk_meter_ignores_2s5s_and_levels_witness :
  risk_meter (0.0070, 0.0035)%float (15, 16.5, 1.5)%float 4.1%float 10.25%float
  = risk_meter (-0.02, 0.0035)%float (31, 12, 1.5)%float 4.1%float 10.25%float.
Proof.
  apply (risk_meter_ignores_2s5s_and_levels
           (0.0070, 0.0035)%float (-0.02, 0.0035)%float
           (15, 16.5, 1.5)%float (31, 12, 1.5)%float); reflexivity.
Defined.

(** C4: the label printed with a score is Risk-On exactly when the score is
    above 0, and Risk-Off for every score at or below 0, 0 included. *)
Theorem risk_label_on_iff_positive (score : Z) :
  (risk_label score = "Risk-On" <-> 0 < score)
  /\ (risk_label score = "Risk-Off" <-> score <= 0)
  /\ risk_label 0 = "Risk-Off".
Proof.
  unfold risk_label. destruct (Z.ltb_spec 0 score); (split; [|split]);
    try reflexivity; split; intros; (done || lia).
Qed.

End Scorer.

(** ** The headline filter *)

Section Headlines.

Implicit Types (keyword text : string) (keywords items : list string).

Lemma append_empty text : EmptyString +:+ text = text.
Proof. reflexivity. Qed.

Lemma append_String (a : Ascii.ascii) text (after : string) :
  String a text +:+ after = String a (text +:+ after).
Proof. reflexivity. Qed.

Lemma prefix_iff_append keyword text :
  String.prefix keyword text = true <-> exists after, text = keyword +:+ after.
Proof.
  revert keyword. induction text as [|b text IH]; intros [|a keyword];
    cbn [String.prefix].
  - split; [intros _; by exists EmptyString | done].
  - split; [done | intros [after Heq]; discriminate Heq].
  - split; [intros _; by eexists | done].
  - destruct (Ascii.ascii_dec a b) as [->|Hne].
    + rewrite IH. split; intros [after Heq]; exists after.
      * by rewrite append_String, <- Heq.
      * rewrite append_String in Heq. by injection Heq.
    + split; [done | intros [after Heq]].
      rewrite append_String in Heq. injection Heq as Hab _. by destruct Hne.
Qed.

(** [str_in] is the substring test: character for character, so a keyword
    in another case does not match. *)
Lemma str_in_iff_substring keyword text :
  str_in keyword text = true
  <-> exists before after, text = before +:+ keyword +:+ after.
Proof.
  induction text as [|a text IH].
  - cbn [str_in]. rewrite orb_false_r, prefix_iff_append. split.
    + intros [after Heq]. by exists EmptyString, after.
    + intros [before [after Heq]]. destruct before as [|b before].
      * by exists after.
      * rewrite append_String in Heq. discriminate Heq.
  - cbn [str_in]. rewrite orb_true_iff, prefix_iff_append, IH. split.
    + intros [[after Heq] | [before [after Heq]]].
      * by exists EmptyString, after.
      * exists (String a before), after. by rewrite append_String, <- Heq.
    + intros [before [after Heq]]. destruct before as [|b before].
      * left. by exists after.
      * right. exists before, after. rewrite append_String in Heq. by injection Heq.
Qed.

Lemma str_in_is_case_sensitive : str_in "Fed" "fed watchers split" = false.
Proof. reflexivity. Qed.

Lemma any_keyword_in_iff keywords text :
  any_keyword_in keywords text = true
  <-> exists keyword, keyword ∈ keywords
        /\ exists before after, text = before +:+ keyword +:+ after.
Proof.
  unfold any_keyword_in. rewrite existsb_exists. split.
  - intros [keyword [Hin Hsub]]. exists keyword.
    by rewrite list_elem_of_In, <- str_in_iff_substring.
  - intros [keyword [Hin Hsub]]. exists keyword.
    by rewrite <- list_elem_of_In, str_in_iff_substring.
Qed.

Lemma keep_headlines_loop keywords items (acc : list string) :
  foldl (fun headlines text =>
           if any_keyword_in keywords text then headlines ++ [text] else headlines)
        acc items
  = acc ++ List.filter (any_keyword_in keywords) items.
Proof.
  revert acc. induction items as [|text items IH]; intros acc; cbn.
  - by rewrite app_nil_r.
  - rewrite IH. destruct (any_keyword_in keywords text); [|done].
    by rewrite <- app_assoc.
Qed.

(** The appending loop keeps exactly the texts that pass the test. *)
Lemma keep_headlines_filter keywords items :
  keep_headlines keywords items = List.filter (any_keyword_in keywords) items.
Proof. unfold keep_headlines. by rewrite keep_headlines_loop. Qed.

Lemma list_filter_sublist {A : Type} (p : A -> bool) (l : list A) :
  List.filter p l `sublist_of` l.
Proof.
  induction l as [|x l IH]; cbn; [constructor|].
  destruct (p x); by constructor.
Qed.

(** C8: for every listing and every keyword set, the kept headlines are a
    subsequence of the listing, in source order, each of which contains at
    least one keyword as a case-sensitive substring; with no keyword nothing
    is kept. *)
Theorem keep_headlines_subsequence_with_keyword keywords items :
  keep_headlines keywords items `sublist_of` items
  /\ Forall (fun text => exists keyword, keyword ∈ keywords
               /\ exists before after, text = before +:+ keyword +:+ after)
            (keep_headlines keywords items)
  /\ keep_headlines [] items = [].
Proof.
  rewrite !keep_headlines_filter. split; [|split].
  - apply list_filter_sublist.
  - rewrite Forall_forall. intros text Hin.
    apply list_elem_of_In, filter_In in Hin as [_ Hkept].
    by apply any_keyword_in_iff.
  - induction items as [|text items IH]; [done|]. cbn. exact IH.
Qed.

End Headlines.

(** ** The fetchers *)

Section Fetchers.

Lemma bind_Ok {A B : Type} (a : A) (k : A -> result B) : (Ok a ≫= k) = k a.
Proof. reflexivity. Qed.

Lemma bind_Raise {A B : Type} (e : exn) (k : A -> result B) :
  (Raise e ≫= k) = Raise e.
Proof. reflexivity. Qed.

Lemma get_vix_structure_inv (w : Upstream.t) (vix vix9d ts : float) :
  get_vix_structure w = Ok (vix, vix9d, ts) ->
  last_close w "^VIX" = Ok vix /\ last_close w "^VIX9D" = Ok vix9d
  /\ ts = (vix9d - vix)%float.
Proof.
  unfold get_vix_structure.
  destruct (last_close w "^VIX") as [a|e]; [|done].
  destruct (last_close w "^VIX9D") as [b|e]; [|done].
  cbn. by intros [= <- <- <-].
Qed.

Lemma values_0_lastPrice_at (table : list row) (atm_strike : float) :
  values_0 (lastPrice_at table atm_strike)
  = match List.find (fun r => (strike r =? atm_strike)%float) table with
    | Some r => Ok (lastPrice r)
    | None => Raise IndexError
    end.
Proof.
  unfold lastPrice_at. induction table as [|r table IH]; [done|].
  cbn. by destruct (strike r =? atm_strike)%float.
Qed.

Lemma iloc_nil {A : Type} (positions : list nat) : iloc (@nil A) positions = [].
Proof. unfold iloc. by induction positions. Qed.

Lemma nearest_strike (argsort : list float -> list nat) (calls : list row)
    (price : float) :
  sorts argsort ->
  no_nan (strike_distances calls price) = true ->
  calls <> [] ->
  exists i near,
    values_0 (strike <$> iloc calls (take 1 (argsort (strike_distances calls price))))
    = Ok (strike near)
    /\ calls !! i = Some near
    /\ (forall r, r ∈ calls ->
          (abs (strike r - price) <? abs (strike near - price))%float = false).
Proof.
  intros Hsorts Hnum Hne.
  destruct (sorts_first argsort (strike_distances calls price) Hsorts Hnum)
    as (i & k & Htake & Hk & Hmin).
  { unfold strike_distances. by destruct calls. }
  unfold strike_distances in Hk, Hmin.
  rewrite list_lookup_fmap in Hk.
  destruct (calls !! i) as [near|] eqn:Hnear; [|done]. injection Hk as <-.
  exists i, near. rewrite Htake. unfold iloc. cbn. rewrite Hnear. cbn.
  split; [done|]. split; [done|].
  intros r [j Hj]%list_elem_of_lookup. apply (Hmin j).
  by rewrite list_lookup_fmap, Hj.
Qed.

(** C6, as the script has it: with an answer to the options query and a
    close for the underlying, the fetch fails with [AttributeError] when
    the calls table is missing and with [IndexError] when it is empty;
    otherwise, for distances that are all numbers and any sort that meets
    numpy's contract, it takes a calls row nearest to the close (no row is
    strictly nearer; which of several equally near rows is taken is left to
    the sort) and returns the last call price plus the last put price at
    that row's strike, together with the strike, failing with [IndexError]
    when a table has no row at that strike and with [TypeError] when the
    puts table is missing. *)
Theorem get_expected_move_nearest_strike (argsort : list float -> list nat)
    (w : Upstream.t) (calls puts : option (list row)) (price : float) :
  sorts argsort ->
  option_chain w "SPY" = Ok (calls, puts) ->
  last_close w "SPY" = Ok price ->
  (calls = None -> get_expected_move argsort w = Raise AttributeError)
  /\ (calls = Some [] -> get_expected_move argsort w = Raise IndexError)
  /\ (forall rows, calls = Some rows -> rows <> [] ->
      no_nan (strike_distances rows price) = true ->
      exists i near,
        rows !! i = Some near
        /\ (forall r, r ∈ rows ->
              (abs (strike r - price) <? abs (strike near - price))%float = false)
        /\ get_expected_move argsort w
           = match List.find (fun r => (strike r =? strike near)%float) rows with
             | None => Raise IndexError
             | Some call =>
                 match puts with
                 | None => Raise TypeError
                 | Some put_rows =>
                     match List.find (fun r => (strike r =? strike near)%float)
                                     put_rows with
                     | None => Raise IndexError
                     | Some put =>
                         Ok ((lastPrice call + lastPrice put)%float, strike near)
                     end
                 end
             end).
Proof.
  intros Hsorts Hchain Hprice. unfold get_expected_move.
  rewrite Hchain, bind_Ok, Hprice, bind_Ok. cbn [fst snd].
  split; [by intros ->|]. split.
  { intros ->. unfold frame_attr. by rewrite bind_Ok, iloc_nil. }
  intros rows -> Hne Hnum. unfold frame_attr. rewrite bind_Ok.
  destruct (nearest_strike argsort rows price Hsorts Hnum Hne)
    as (i & near & -> & Hnear & Hmin).
  exists i, near. split; [done|]. split; [done|].
  rewrite bind_Ok, values_0_lastPrice_at.
  destruct (List.find _ rows) as [call|]; [|done].
  rewrite bind_Ok. destruct puts as [put_rows|]; [|done].
  unfold frame_item. rewrite bind_Ok, values_0_lastPrice_at.
  by destruct (List.find _ put_rows) as [put|].
Qed.

Lemma get_expected_move_nearest_strike_witness :
  (Some Sample.calls_of_calm = None ->
   get_expected_move Sample.ties_first_argsort Sample.calm = Raise AttributeError)
  /\ (Some Sample.calls_of_calm = Some [] ->
      get_expected_move Sample.ties_first_argsort Sample.calm = Raise IndexError)
  /\ (forall rows, Some Sample.calls_of_calm = Some rows -> rows <> [] ->
      no_nan (strike_distances rows 450.3) = true ->
      exists i near,
        rows !! i = Some near
        /\ (forall r, r ∈ rows ->
              (abs (strike r - 450.3) <? abs (strike near - 450.3))%float = false)
        /\ get_expected_move Sample.ties_first_argsort Sample.calm
           = match List.find (fun r => (strike r =? strike near)%float) rows with
             | None => Raise IndexError
             | Some call =>
                 match Some Sample.puts_of_calm with
                 | None => Raise TypeError
                 | Some put_rows =>
                     match List.find (fun r => (strike r =? strike near)%float)
                                     put_rows with
                     | None => Raise IndexError
                     | Some put =>
                         Ok ((lastPrice call + lastPrice put)%float, strike near)
                     end
                 end
             end).
Proof.
  apply (get_expected_move_nearest_strike Sample.ties_first_argsort Sample.calm
           (Some Sample.calls_of_calm) (Some Sample.puts_of_calm) 450.3%float).
  - exact ties_first_argsort_sorts.
  - reflexivity.
  - reflexivity.
Defined.

Lemma get_expected_move_chain_failure (argsort : list float -> list nat)
    (w : Upstream.t) (e : exn) :
  option_chain w "SPY" = Raise e -> get_expected_move argsort w = Raise e.
Proof. unfold get_expected_move. by intros ->. Qed.

Example expected_move_on_calm :
  get_expected_move Sample.ties_first_argsort Sample.calm
  = Ok ((2 + 2.1)%float, 450%float)
  /\ get_expected_move Sample.ties_last_argsort Sample.calm
     = Ok ((2 + 2.1)%float, 450%float).
Proof. split; reflexivity. Qed.

Example expected_move_between_strikes :
  get_expected_move Sample.ties_first_argsort Sample.between_strikes
  = Ok ((2 + 2.1)%float, 450%float)
  /\ get_expected_move Sample.ties_last_argsort Sample.between_strikes
     = Ok ((0.6 + 6.2)%float, 455%float).
Proof. split; reflexivity. Qed.

Example expected_move_without_puts :
  get_expected_move Sample.ties_first_argsort Sample.no_puts = Raise TypeError.
Proof. reflexivity. Qed.

(** C6 as stated fails twice.  Without an options chain the fetch ends in
    the [AttributeError] of [None.iloc], with an empty one in the
    [IndexError] of [values[0]], and either ends [main]; no error of a
    SourceUnavailable class is raised.  And of two equally near strikes the
    first need not be the one taken: a sort that meets numpy's contract and
    puts the later of two equal keys first makes the fetch return the later
    strike, where a sort that keeps them in order returns the earlier. *)
Lemma missing_chain_and_tied_strikes :
  option_chain Sample.no_chain "SPY" = Ok (None, None)
  /\ get_expected_move Sample.ties_first_argsort Sample.no_chain = Raise AttributeError
  /\ exn_class AttributeError <> "SourceUnavailable"
  /\ main Sample.ties_first_argsort Sample.no_chain = Raise AttributeError
  /\ get_expected_move Sample.ties_first_argsort Sample.empty_chain = Raise IndexError
  /\ exn_class IndexError <> "SourceUnavailable"
  /\ sorts Sample.ties_last_argsort
  /\ get_expected_move Sample.ties_last_argsort Sample.tied
     = Ok (44%float, 415%float)
  /\ sorts Sample.ties_first_argsort
  /\ get_expected_move Sample.ties_first_argsort Sample.tied
     = Ok (33%float, 410%float).
Proof.
  split; [reflexivity|]. split; [reflexivity|]. split; [discriminate|].
  split; [reflexivity|]. split; [reflexivity|]. split; [discriminate|].
  split; [exact ties_last_argsort_sorts|]. split; [reflexivity|].
  split; [exact ties_first_argsort_sorts | reflexivity].
Qed.

(** C7 as stated fails: when the page cannot be fetched the headline fetch
    raises instead of returning an empty list, and [main] ends with it
    although every quote fetch succeeded. *)
Lemma headline_failure_is_raised :
  fetch_headlines Sample.news_down = Raise (LibraryError "ConnectionError")
  /\ fetch_headlines Sample.news_down <> Ok []
  /\ is_ok (get_treasury_spreads Sample.news_down) = true
  /\ is_ok (get_vix_structure Sample.news_down) = true
  /\ is_ok (get_expected_move Sample.ties_first_argsort Sample.news_down) = true
  /\ is_ok (get_fair_value Sample.news_down) = true
  /\ main Sample.ties_first_argsort Sample.news_down
     = Raise (LibraryError "ConnectionError").
Proof. repeat split; (reflexivity || discriminate). Qed.

End Fetchers.

(** ** The main run *)

Section MainRun.

Lemma main_ok_inv (argsort : list float -> list nat) (w : Upstream.t) (r : report) :
  main argsort w = Ok r ->
  exists spreads vix_struct expected_move atm_strike premium_discount headlines,
    get_treasury_spreads w = Ok spreads
    /\ get_vix_structure w = Ok vix_struct
    /\ get_expected_move argsort w = Ok (expected_move, atm_strike)
    /\ get_fair_value w = Ok premium_discount
    /\ fetch_headlines w = Ok headlines
    /\ risk_score r = risk_meter spreads vix_struct expected_move premium_discount
    /\ label r = risk_label (risk_score r)
    /\ data r !! "vix" = Some vix_struct.1.1
    /\ data r !! "vix9d" = Some vix_struct.1.2
    /\ data r !! "term_structure" = Some vix_struct.2.
Proof.
  unfold main.
  destruct (get_treasury_spreads w) as [spreads|e]; [|done].
  destruct (get_vix_structure w) as [vix_struct|e]; [|done].
  destruct (get_expected_move argsort w) as [[expected_move atm_strike]|e]; [|done].
  destruct (get_fair_value w) as [premium_discount|e]; [|done].
  destruct (fetch_headlines w) as [headlines|e]; [|done].
  cbn. intros [= <-]. cbn.
  exists spreads, vix_struct, expected_move, atm_strike, premium_discount, headlines.
  repeat split; by simplify_map_eq.
Qed.

Lemma main_first_failure (argsort : list float -> list nat) (w : Upstream.t) :
  match first_failure argsort w with
  | Some e => main argsort w = Raise e
  | None => is_ok (main argsort w) = true
  end.
Proof.
  unfold first_failure, main.
  destruct (get_treasury_spreads w) as [spreads|e]; [|done].
  destruct (get_vix_structure w) as [vix_struct|e]; [|done].
  destruct (get_expected_move argsort w) as [[expected_move atm_strike]|e]; [|done].
  destruct (get_fair_value w) as [premium_discount|e]; [|done].
  destruct (fetch_headlines w) as [headlines|e]; done.
Qed.

Lemma main_is_ok (argsort : list float -> list nat) (w : Upstream.t) :
  is_ok (main argsort w)
  = is_ok (get_treasury_spreads w) && is_ok (get_vix_structure w)
    && is_ok (get_expected_move argsort w) && is_ok (get_fair_value w)
    && is_ok (fetch_headlines w).
Proof.
  unfold main.
  destruct (get_treasury_spreads w) as [spreads|e]; [|done].
  destruct (get_vix_structure w) as [vix_struct|e]; [|done].
  destruct (get_expected_move argsort w) as [[expected_move atm_strike]|e]; [|done].
  destruct (get_fair_value w) as [premium_discount|e]; [|done].
  destruct (fetch_headlines w) as [headlines|e]; done.
Qed.

(** C7, as the script has it: a failure of the page request leaves
    [fetch_headlines] as the exception raised, and [main] then produces no
    report; when the page is fetched the result is the filtered listing. *)
Theorem fetch_headlines_propagates_failure (argsort : list float -> list nat)
    (w : Upstream.t) :
  match h3_texts w "https://finance.yahoo.com/" with
  | Raise e => fetch_headlines w = Raise e /\ is_ok (main argsort w) = false
  | Ok items => fetch_headlines w = Ok (keep_headlines HIGH_IMPACT_KEYWORDS items)
  end.
Proof.
  pose proof (main_is_ok argsort w) as Hmain. unfold fetch_headlines in *.
  destruct (h3_texts w "https://finance.yahoo.com/") as [items|e]; [done|].
  split; [done|]. rewrite Hmain. cbn. by rewrite andb_false_r.
Qed.

(** C3 as stated fails: one fetch without data ends [main] with its
    exception although the three other quote fetches succeed. *)
Lemma one_failed_fetch_aborts_main :
  is_ok (get_treasury_spreads Sample.vix_down) = true
  /\ get_vix_structure Sample.vix_down = Raise IndexError
  /\ is_ok (get_expected_move Sample.ties_first_argsort Sample.vix_down) = true
  /\ is_ok (get_fair_value Sample.vix_down) = true
  /\ is_ok (fetch_headlines Sample.vix_down) = true
  /\ main Sample.ties_first_argsort Sample.vix_down = Raise IndexError.
Proof. repeat split; reflexivity. Qed.

(** C3, as the script has it: [main] catches nothing.  It builds its
    snapshot exactly when all four quote fetches and the headline fetch
    succeed; otherwise the exception of the first fetch that fails, in call
    order, leaves [main]. *)
Theorem main_returns_iff_every_fetch_succeeds (argsort : list float -> list nat)
    (w : Upstream.t) :
  is_ok (main argsort w)
  = is_ok (get_treasury_spreads w) && is_ok (get_vix_structure w)
    && is_ok (get_expected_move argsort w) && is_ok (get_fair_value w)
    && is_ok (fetch_headlines w)
  /\ match first_failure argsort w with
     | Some e => main argsort w = Raise e
     | None => is_ok (main argsort w) = true
     end.
Proof. split; [apply main_is_ok | apply main_first_failure]. Qed.

(** C2 as stated fails: when nothing answers there is no score of 0 with
    label Risk-Off, [main] raises; and fields that hold the missing marker
    NaN are scored -1 each, -4 in all. *)
Lemma missing_fields_do_not_abstain :
  main Sample.ties_first_argsort Sample.all_down = Raise IndexError
  /\ risk_meter (nan, nan) (nan, nan, nan) nan nan = -4
  /\ contribution 0 nan nan nan nan = -1
  /\ contribution 1 nan nan nan nan = -1
  /\ contribution 2 nan nan nan nan = -1
  /\ contribution 3 nan nan nan nan = -1.
Proof. repeat split; reflexivity. Qed.

(** C2, as the script has it: no sub-signal abstains.  The score of
    [risk_meter] is the sum of what its four blocks add, each of them
    exactly +1 or -1 whatever its field holds and -1 when the field is NaN,
    so four NaN fields score -4; and [main] has a score, the one
    [risk_meter] gives on the fetched values, only when every one of its
    five fetches has succeeded. *)
Theorem risk_meter_never_abstains (argsort : list float -> list nat)
    (spreads : float * float) (vix_struct : float * float * float) (em pd : float) :
  risk_meter spreads vix_struct em pd
  = contribution 0 spreads.2 vix_struct.2 em pd
    + contribution 1 spreads.2 vix_struct.2 em pd
    + contribution 2 spreads.2 vix_struct.2 em pd
    + contribution 3 spreads.2 vix_struct.2 em pd
  /\ (forall n, (n < 4)%nat ->
        contribution n spreads.2 vix_struct.2 em pd = 1
        \/ contribution n spreads.2 vix_struct.2 em pd = -1)
  /\ (is_nan spreads.2 = true -> contribution 0 spreads.2 vix_struct.2 em pd = -1)
  /\ (is_nan vix_struct.2 = true -> contribution 1 spreads.2 vix_struct.2 em pd = -1)
  /\ (is_nan em = true -> contribution 2 spreads.2 vix_struct.2 em pd = -1)
  /\ (is_nan pd = true -> contribution 3 spreads.2 vix_struct.2 em pd = -1)
  /\ (is_nan spreads.2 = true -> is_nan vix_struct.2 = true ->
      is_nan em = true -> is_nan pd = true ->
      risk_meter spreads vix_struct em pd = -4)
  /\ (forall w r, main argsort w = Ok r ->
        exists fetched_spreads fetched_vix fetched_em atm fetched_pd,
          get_treasury_spreads w = Ok fetched_spreads
          /\ get_vix_structure w = Ok fetched_vix
          /\ get_expected_move argsort w = Ok (fetched_em, atm)
          /\ get_fair_value w = Ok fetched_pd
          /\ is_ok (fetch_headlines w) = true
          /\ risk_score r = risk_meter fetched_spreads fetched_vix fetched_em fetched_pd).
Proof.
  destruct spreads as [s5 s10], vix_struct as [[v v9] ts]. cbn [fst snd].
  split; [|split; [|split; [|split; [|split; [|split; [|split]]]]]].
  - unfold risk_meter, contribution, points_after. cbn.
    destruct (0 <? s10)%float, (0 <? ts)%float, (em <? 5)%float, (0 <? pd)%float;
      reflexivity.
  - intros n Hn. by apply contribution_cases.
  - intros [Hnan _]%nan_compares_false. unfold contribution, points_after. cbn.
    by rewrite Hnan.
  - intros [Hnan _]%nan_compares_false. unfold contribution, points_after. cbn.
    rewrite Hnan. destruct (0 <? s10)%float; lia.
  - intros [_ Hnan]%nan_compares_false. unfold contribution, points_after. cbn.
    rewrite Hnan. destruct (0 <? s10)%float, (0 <? ts)%float; lia.
  - intros [Hnan _]%nan_compares_false. unfold contribution, points_after. cbn.
    rewrite Hnan. destruct (0 <? s10)%float, (0 <? ts)%float, (em <? 5)%float; lia.
  - intros [Hs10 _]%nan_compares_false [Hts _]%nan_compares_false
           [_ Hem]%nan_compares_false [Hpd _]%nan_compares_false.
    unfold risk_meter. by rewrite Hs10, Hts, Hem, Hpd.
  - intros w r (sp & vs & em' & atm & pd' & hl & Hsp & Hvs & Hem & Hpd & Hhl
                & Hscore & _)%main_ok_inv.
    exists sp, vs, em', atm, pd'. by rewrite Hhl.
Qed.

(** C5 as stated fails on its second half: with no close for the
    volatility index there is no snapshot that marks the term structure as
    missing, the fetch raises and so does [main], although the other index
    has its close. *)
Lemma missing_close_leaves_no_marker :
  last_close Sample.vix_down "^VIX" = Raise IndexError
  /\ last_close Sample.vix_down "^VIX9D" = Ok 16.5%float
  /\ get_vix_structure Sample.vix_down = Raise IndexError
  /\ main Sample.ties_first_argsort Sample.vix_down = Raise IndexError.
Proof. repeat split; reflexivity. Qed.

(** C5, as the script has it: the term structure has no source of its own.
    Whenever the fetch returns, and in every snapshot [main] builds, it is
    vix9d minus vix of the two closes read; and there is no missing marker:
    when either close cannot be read the fetch raises that failure, no
    term structure is produced and [main] builds no snapshot. *)
Theorem term_structure_from_both_closes_or_none (argsort : list float -> list nat)
    (w : Upstream.t) :
  (forall vix vix9d ts, get_vix_structure w = Ok (vix, vix9d, ts) ->
     last_close w "^VIX" = Ok vix /\ last_close w "^VIX9D" = Ok vix9d
     /\ ts = (vix9d - vix)%float)
  /\ (forall r, main argsort w = Ok r ->
        exists vix vix9d : float,
          last_close w "^VIX" = Ok vix
          /\ last_close w "^VIX9D" = Ok vix9d
          /\ data r !! "vix" = Some vix
          /\ data r !! "vix9d" = Some vix9d
          /\ data r !! "term_structure" = Some (vix9d - vix)%float)
  /\ (forall e, last_close w "^VIX" = Raise e ->
        get_vix_structure w = Raise e /\ is_ok (main argsort w) = false)
  /\ (forall vix e, last_close w "^VIX" = Ok vix -> last_close w "^VIX9D" = Raise e ->
        get_vix_structure w = Raise e /\ is_ok (main argsort w) = false).
Proof.
  split; [|split; [|split]].
  - intros vix vix9d ts. apply get_vix_structure_inv.
  - intros r (spreads & [[vix vix9d] ts] & em & atm & pd & hl & _ & Hvix & _ & _ & _
              & _ & _ & Hdvix & Hdvix9d & Hdts)%main_ok_inv.
    apply get_vix_structure_inv in Hvix as (Hv & Hv9 & ->).
    by exists vix, vix9d.
  - intros e Hv. assert (get_vix_structure w = Raise e) as Hraise.
    { unfold get_vix_structure. by rewrite Hv. }
    split; [done|]. rewrite main_is_ok, Hraise. cbn.
    by rewrite andb_false_r.
  - intros vix e Hv Hv9. assert (get_vix_structure w = Raise e) as Hraise.
    { unfold get_vix_structure. by rewrite Hv, bind_Ok, Hv9. }
    split; [done|]. rewrite main_is_ok, Hraise. cbn.
    by rewrite andb_false_r.
Qed.

Example term_structure_on_calm :
  data Sample.calm_report !! "term_structure" = Some 1.5%float
  /\ risk_score Sample.calm_report = 4
  /\ label Sample.calm_report = "Risk-On".
Proof. vm_compute. repeat split; reflexivity. Qed.

Example vix_structure_without_a_close :
  get_vix_structure Sample.vix_down = Raise IndexError.
Proof. reflexivity. Qed.

End MainRun.

(** * Further properties *)

(** ** The scorer: how many signals it takes *)

Section ScorerMore.

(** X1: the score is twice the number of conditions that hold, minus 4; the
    label is Risk-On exactly when at least three of the four hold, and a
    two against two split is Risk-Off. *)
Theorem risk_on_iff_three_signals (s5 s10 v v9 ts em pd : float) :
  risk_meter (s5, s10) (v, v9, ts) em pd = 2 * Z.of_nat (signals_on s10 ts em pd) - 4
  /\ (risk_label (risk_meter (s5, s10) (v, v9, ts) em pd) = "Risk-On"
      <-> (3 <= signals_on s10 ts em pd)%nat)
  /\ (signals_on s10 ts em pd = 2%nat ->
      risk_label (risk_meter (s5, s10) (v, v9, ts) em pd) = "Risk-Off").
Proof.
  unfold risk_meter, signals_on, risk_label.
  destruct (0 <? s10)%float, (0 <? ts)%float, (em <? 5)%float, (0 <? pd)%float;
    cbn; (split; [reflexivity|]); split; try (split; intros; (done || lia)); done.
Qed.

End ScorerMore.



(** ** The headline filter: what is kept *)

Section HeadlinesMore.
Implicit Types (keyword text : string) (keywords items : list string).

(** X2: a text is among the kept headlines exactly when it is in the listing
    and contains one of the keywords: nothing that matches is dropped. *)
Theorem keep_headlines_keeps_every_match keywords items text :
  text ∈ keep_headlines keywords items
  <-> text ∈ items
      /\ exists keyword, keyword ∈ keywords
           /\ exists before after, text = before +:+ keyword +:+ after.
Proof.
  rewrite keep_headlines_filter, !list_elem_of_In, filter_In, <- list_elem_of_In.
  by rewrite any_keyword_in_iff.
Qed.

(** X3: filtering goes through a concatenation of listings piece by piece,
    filtering twice changes nothing more, and the output is never longer
    than the listing. *)
Theorem keep_headlines_app keywords items more :
  keep_headlines keywords (items ++ more)
  = keep_headlines keywords items ++ keep_headlines keywords more
  /\ keep_headlines keywords (keep_headlines keywords items)
     = keep_headlines keywords items
  /\ (length (keep_headlines keywords items) <= length items)%nat.
Proof.
  rewrite !keep_headlines_filter. split; [apply List.filter_app|]. split.
  - induction items as [|text items IH]; [done|]. cbn.
    destruct (any_keyword_in keywords text) eqn:Hkeep; [|done].
    cbn. by rewrite Hkeep, IH.
  - apply List.filter_length_le.
Qed.

Lemma str_in_empty text : str_in EmptyString text = true.
Proof. by destruct text. Qed.

(** X4: an empty keyword is in every text, so a keyword list that holds one
    keeps the whole listing. *)
Theorem empty_keyword_keeps_everything keywords items :
  EmptyString ∈ keywords -> keep_headlines keywords items = items.
Proof.
  intros Hin. rewrite keep_headlines_filter.
  induction items as [|text items IH]; [done|]. cbn.
  replace (any_keyword_in keywords text) with true; [by rewrite IH|].
  symmetry. apply existsb_exists. exists EmptyString.
  split; [by apply list_elem_of_In | apply str_in_empty].
Qed.

Lemma empty_keyword_keeps_everything_witness :
  keep_headlines ["Fed"; EmptyString] ["Ten recipes for autumn"; "fed watchers split"]
  = ["Ten recipes for autumn"; "fed watchers split"].
Proof.
  apply (empty_keyword_keeps_everything ["Fed"; EmptyString]). set_solver.
Defined.

End HeadlinesMore.


(** ** Floats: differences that are not above zero *)

Section FloatMore.

Lemma is_nan_div_l (x y : float) : is_nan x = true -> is_nan (x / y) = true.
Proof.
  rewrite !is_nan_spec, div_spec. unfold SF64div, SFdiv. by intros ->.
Qed.

(** A difference of a float with itself is +0 or NaN, never above 0. *)
Lemma sub_diag_not_positive (x : float) : (0 <? x - x)%float = false.
Proof.
  rewrite ltb_spec, sub_spec. unfold SF64sub, SFsub.
  destruct (Prim2SF x) as [s|s| |s m e].
  - by destruct s.
  - by destruct s.
  - done.
  - rewrite Z.sub_diag. reflexivity.
Qed.

End FloatMore.

(** ** The fetchers: what they read and how they fail *)

Section FetchersMore.

(** X5: the close a fetcher reads is the one of the last session row; it is
    [IndexError] exactly when the history has no row, and any failure of
    the history query itself is passed on unchanged. *)
Theorem last_close_is_last_row (w : Upstream.t) (sym : string) :
  (forall c, last_close w sym = Ok c <-> exists rows, history w sym = Ok (rows ++ [c]))
  /\ (forall e, last_close w sym = Raise e
        <-> history w sym = Raise e \/ (history w sym = Ok [] /\ e = IndexError)).
Proof.
  unfold last_close, iloc_last.
  destruct (history w sym) as [closes|e0]; rewrite ?bind_Ok, ?bind_Raise.
  - destruct (last closes) as [x|] eqn:Hlast.
    + apply last_Some in Hlast as [rows ->]. split.
      * intros c. split.
        -- intros [= <-]. by exists rows.
        -- intros [rows' [= Heq]]. by apply app_inj_tail in Heq as [_ ->].
      * intros e. split; [done|]. intros [?|[Heq _]]; [done|].
        injection Heq as Heq. by destruct rows.
    + apply last_None in Hlast as ->. split.
      * intros c. split; [done|]. intros [rows [= Heq]]. by destruct rows.
      * intros e. split; [intros [= <-]; by right|]. by intros [?|[_ ->]].
  - split.
    + intros c. split; [done|]. by intros [rows ?].
    + intros e. split; [intros [= <-]; by left|]. by intros [[= ->]|[? _]].
Qed.

(** X6: the spreads are short minus long, (^IRX - ^FVX) and (^IRX - ^TNX),
    each close divided by 100 first; a NaN ^IRX close makes both NaN; and
    when the ^IRX and ^TNX closes are equal, or one of them is NaN, the
    yield curve block of the scorer takes 1 off. *)
Theorem get_treasury_spreads_short_minus_long (w : Upstream.t) (s5 s10 : float) :
  get_treasury_spreads w = Ok (s5, s10) ->
  exists tnx fvx irx : float,
    last_close w "^TNX" = Ok tnx /\ last_close w "^FVX" = Ok fvx
    /\ last_close w "^IRX" = Ok irx
    /\ s5 = (irx / 100 - fvx / 100)%float
    /\ s10 = (irx / 100 - tnx / 100)%float
    /\ (is_nan irx = true -> is_nan s5 = true /\ is_nan s10 = true)
    /\ (irx = tnx \/ is_nan irx = true \/ is_nan tnx = true ->
        forall ts em pd, contribution 0 s10 ts em pd = -1).
Proof.
  unfold get_treasury_spreads.
  destruct (last_close w "^TNX") as [tnx|e]; [|done].
  destruct (last_close w "^FVX") as [fvx|e]; [|done].
  destruct (last_close w "^IRX") as [irx|e]; [|done].
  rewrite !bind_Ok. intros [= <- <-]. exists tnx, fvx, irx.
  repeat split; try done.
  - apply is_nan_sub. by rewrite (is_nan_div_l irx 100).
  - apply is_nan_sub. by rewrite (is_nan_div_l irx 100).
  - intros Hflat ts em pd.
    assert ((0 <? irx / 100 - tnx / 100)%float = false) as Hneg.
    { destruct Hflat as [-> | [Hnan | Hnan]].
      - apply sub_diag_not_positive.
      - apply nan_compares_false, is_nan_sub. by rewrite (is_nan_div_l irx 100).
      - apply nan_compares_false, is_nan_sub.
        by rewrite (is_nan_div_l tnx 100), orb_true_r. }
    unfold contribution, points_after. cbn. by rewrite Hneg.
Qed.

(** X7: the premium is the ES=F close minus the ^GSPC close; when the two
    are equal, or one is NaN, it is not above 0 and the futures block of
    the scorer takes 1 off. *)
Theorem get_fair_value_futures_minus_cash (w : Upstream.t) (pd : float) :
  get_fair_value w = Ok pd ->
  exists es spx : float,
    last_close w "ES=F" = Ok es /\ last_close w "^GSPC" = Ok spx
    /\ pd = (es - spx)%float
    /\ (es = spx \/ is_nan es = true \/ is_nan spx = true ->
        (0 <? pd)%float = false
        /\ forall s10 ts em, contribution 3 s10 ts em pd = -1).
Proof.
  unfold get_fair_value.
  destruct (last_close w "ES=F") as [es|e]; [|done].
  destruct (last_close w "^GSPC") as [spx|e]; [|done].
  rewrite !bind_Ok. intros [= <-]. exists es, spx.
  split; [done|]. split; [done|]. split; [done|]. intros Hflat.
  assert ((0 <? es - spx)%float = false) as Hneg.
  { destruct Hflat as [-> | [Hnan | Hnan]].
    - apply sub_diag_not_positive.
    - apply nan_compares_false, is_nan_sub. by rewrite Hnan.
    - apply nan_compares_false, is_nan_sub. by rewrite Hnan, orb_true_r. }
  split; [done|]. intros s10 ts em.
  unfold contribution, points_after. cbn. rewrite Hneg.
  destruct (0 <? s10)%float, (0 <? ts)%float, (em <? 5)%float; lia.
Qed.

(** X8: when the two volatility closes are equal the term structure is not
    above 0 and the term structure block of the scorer takes 1 off. *)
Theorem flat_vix_structure_scores_minus_one (w : Upstream.t) (vix vix9d ts : float) :
  get_vix_structure w = Ok (vix, vix9d, ts) ->
  vix9d = vix ->
  (0 <? ts)%float = false
  /\ forall s10 em pd, contribution 1 s10 ts em pd = -1.
Proof.
  intros (_ & _ & ->)%get_vix_structure_inv ->.
  pose proof (sub_diag_not_positive vix) as Hneg. split; [done|].
  intros s10 em pd. unfold contribution, points_after. cbn. rewrite Hneg.
  destruct (0 <? s10)%float; lia.
Qed.

Lemma find_some_elem {A : Type} (p : A -> bool) (l : list A) (x : A) :
  List.find p l = Some x -> x ∈ l /\ p x = true.
Proof. intros [Hin Hp]%find_some. by rewrite list_elem_of_In. Qed.

(** X9: a failure of the options query, and after it of the close of the
    underlying, leaves the fetch unchanged; and whatever the fetch returns
    is the last price of a calls row plus the last price of a puts row
    whose strikes both equal the returned strike, itself the strike of a
    calls row. *)
Theorem get_expected_move_legs_share_strike (argsort : list float -> list nat)
    (w : Upstream.t) :
  (forall e, option_chain w "SPY" = Raise e -> get_expected_move argsort w = Raise e)
  /\ (forall chain e, option_chain w "SPY" = Ok chain ->
        last_close w "SPY" = Raise e -> get_expected_move argsort w = Raise e)
  /\ (forall em atm, get_expected_move argsort w = Ok (em, atm) ->
        exists calls puts call put,
          option_chain w "SPY" = Ok (Some calls, Some puts)
          /\ call ∈ calls /\ put ∈ puts
          /\ (strike call =? atm)%float = true
          /\ (strike put =? atm)%float = true
          /\ em = (lastPrice call + lastPrice put)%float
          /\ exists near, near ∈ calls /\ atm = strike near).
Proof.
  unfold get_expected_move. split; [by intros e ->|]. split.
  { intros chain e -> Hclose. by rewrite bind_Ok, Hclose. }
  intros em atm.
  destruct (option_chain w "SPY") as [[[calls|] puts]|e]; [| |done].
  2:{ rewrite bind_Ok. by destruct (last_close w "SPY"). }
  destruct (last_close w "SPY") as [price|e]; [|done].
  rewrite !bind_Ok. cbn [fst snd]. unfold frame_attr. rewrite bind_Ok.
  destruct (values_0 (strike <$> iloc calls
              (take 1 (argsort (strike_distances calls price))))) as [atm0|e] eqn:Hatm;
    [|done].
  rewrite bind_Ok, values_0_lastPrice_at.
  destruct (List.find _ calls) as [call|] eqn:Hcall; [|done].
  rewrite bind_Ok. destruct puts as [puts|]; [|done].
  unfold frame_item. rewrite bind_Ok, values_0_lastPrice_at.
  destruct (List.find _ puts) as [put|] eqn:Hput; [|done].
  rewrite bind_Ok. intros [= <- <-].
  apply find_some_elem in Hcall as [Hcin Hceq], Hput as [Hpin Hpeq].
  exists calls, puts, call, put. repeat split; try done.
  unfold values_0 in Hatm.
  destruct (strike <$> iloc calls _) as [|s rest] eqn:Hrows; [done|].
  injection Hatm as ->.
  assert (atm0 ∈ strike <$> iloc calls
            (take 1 (argsort (strike_distances calls price)))) as Hin.
  { rewrite Hrows. by left. }
  apply list_elem_of_fmap in Hin as (near & -> & Hin).
  exists near. split; [|done]. unfold iloc in Hin.
  apply list_elem_of_omap in Hin as (i & _ & Hi). by eapply list_elem_of_lookup_2.
Qed.

Lemma get_treasury_spreads_short_minus_long_witness :
  exists tnx fvx irx : float,
    last_close Sample.calm "^TNX" = Ok tnx /\ last_close Sample.calm "^FVX" = Ok fvx
    /\ last_close Sample.calm "^IRX" = Ok irx
    /\ (4.6 / 100 - 3.9 / 100)%float = (irx / 100 - fvx / 100)%float
    /\ (4.6 / 100 - 4.25 / 100)%float = (irx / 100 - tnx / 100)%float
    /\ (is_nan irx = true ->
        is_nan (4.6 / 100 - 3.9 / 100) = true /\ is_nan (4.6 / 100 - 4.25 / 100) = true)
    /\ (irx = tnx \/ is_nan irx = true \/ is_nan tnx = true ->
        forall ts em pd, contribution 0 (4.6 / 100 - 4.25 / 100) ts em pd = -1).
Proof.
  apply (get_treasury_spreads_short_minus_long Sample.calm). reflexivity.
Defined.

Lemma get_fair_value_futures_minus_cash_witness :
  exists es spx : float,
    last_close Sample.calm "ES=F" = Ok es /\ last_close Sample.calm "^GSPC" = Ok spx
    /\ 10.25%float = (es - spx)%float
    /\ (es = spx \/ is_nan es = true \/ is_nan spx = true ->
        (0 <? 10.25)%float = false
        /\ forall s10 ts em, contribution 3 s10 ts em 10.25 = -1).
Proof.
  apply (get_fair_value_futures_minus_cash Sample.calm). reflexivity.
Defined.

Lemma flat_vix_structure_scores_minus_one_witness :
  (0 <? 0)%float = false
  /\ forall s10 em pd, contribution 1 s10 0 em pd = -1.
Proof.
  apply (flat_vix_structure_scores_minus_one Sample.flat_vix 15 15 0); reflexivity.
Defined.

End FetchersMore.


(** ** The main run: what the report holds *)

Section MainMore.

Lemma main_ok_report (argsort : list float -> list nat) (w : Upstream.t)
    (r : report) :
  main argsort w = Ok r ->
  exists spreads vix_struct expected_move atm_strike premium_discount hls,
    get_treasury_spreads w = Ok spreads
    /\ get_vix_structure w = Ok vix_struct
    /\ get_expected_move argsort w = Ok (expected_move, atm_strike)
    /\ get_fair_value w = Ok premium_discount
    /\ fetch_headlines w = Ok hls
    /\ r = {| data :=
                <["spread_2s5s" := spreads.1]> (
                <["spread_2s10s" := spreads.2]> (
                <["vix" := vix_struct.1.1]> (
                <["vix9d" := vix_struct.1.2]> (
                <["term_structure" := vix_struct.2]> (
                <["expected_move" := expected_move]> (
                <["atm_strike" := atm_strike]> (
                <["premium_discount" := premium_discount]> ∅)))))));
              risk_score := risk_meter spreads vix_struct expected_move premium_discount;
              label := risk_label
                         (risk_meter spreads vix_struct expected_move premium_discount);
              headlines := hls |}.
Proof.
  unfold main.
  destruct (get_treasury_spreads w) as [spreads|e]; [|done].
  destruct (get_vix_structure w) as [vix_struct|e]; [|done].
  destruct (get_expected_move argsort w) as [[expected_move atm_strike]|e]; [|done].
  destruct (get_fair_value w) as [premium_discount|e]; [|done].
  destruct (fetch_headlines w) as [hls|e]; [|done].
  rewrite !bind_Ok. intros [= <-].
  by exists spreads, vix_struct, expected_move, atm_strike, premium_discount, hls.
Qed.

(** X10: the dictionary [main] reports has exactly the eight keys the
    report reads, and the score reported with it is the sum of the four
    +1 or -1 terms read off four of its fields, with the label of that
    score. *)
Theorem main_score_matches_data (argsort : list float -> list nat)
    (w : Upstream.t) (r : report) :
  main argsort w = Ok r ->
  dom (data r) = list_to_set html_keys
  /\ exists s10 ts em pd : float,
       data r !! "spread_2s10s" = Some s10
       /\ data r !! "term_structure" = Some ts
       /\ data r !! "expected_move" = Some em
       /\ data r !! "premium_discount" = Some pd
       /\ risk_score r
          = plus_or_minus (0 <? s10)%float + plus_or_minus (0 <? ts)%float
            + plus_or_minus (em <? 5)%float + plus_or_minus (0 <? pd)%float
       /\ label r = risk_label (risk_score r).
Proof.
  intros ([s5 s10] & [[v v9] ts] & em & atm & pd & hls & _ & _ & _ & _ & _ & ->)%main_ok_report.
  cbn [data risk_score label fst snd]. split.
  - rewrite !dom_insert_L, dom_empty_L. unfold html_keys. cbn [list_to_set]. set_solver.
  - exists s10, ts, em, pd. repeat split; try by simplify_map_eq.
    unfold risk_meter, plus_or_minus.
    destruct (0 <? s10)%float, (0 <? ts)%float, (em <? 5)%float, (0 <? pd)%float;
      reflexivity.
Qed.

Lemma last_close_ext (w w' : Upstream.t) (sym : string) :
  (forall s, history w s = history w' s) -> last_close w sym = last_close w' sym.
Proof. intros Hh. unfold last_close. by rewrite Hh. Qed.

(** X11: two runs that get the same quotes and options chains report the
    same figures, score and label whatever their news pages hold, and two
    runs that get the same news page report the same headlines whatever
    the quotes are. *)
Theorem main_separates_quotes_and_news (argsort : list float -> list nat)
    (w w' : Upstream.t) (r r' : report) :
  main argsort w = Ok r ->
  main argsort w' = Ok r' ->
  ((forall sym, history w sym = history w' sym) ->
   (forall sym, option_chain w sym = option_chain w' sym) ->
   data r = data r' /\ risk_score r = risk_score r' /\ label r = label r')
  /\ (h3_texts w "https://finance.yahoo.com/" = h3_texts w' "https://finance.yahoo.com/" ->
      headlines r = headlines r').
Proof.
  intros (sp & vs & em & atm & pd & hls & Hsp & Hvs & Hem & Hpd & Hhl & ->)%main_ok_report.
  intros (sp' & vs' & em' & atm' & pd' & hls' & Hsp' & Hvs' & Hem' & Hpd' & Hhl' & ->)%main_ok_report.
  cbn [data risk_score label headlines]. split.
  - intros Hh Hc.
    assert (get_treasury_spreads w = get_treasury_spreads w') as Heq1.
    { unfold get_treasury_spreads. by rewrite !(last_close_ext w w'). }
    assert (get_vix_structure w = get_vix_structure w') as Heq2.
    { unfold get_vix_structure. by rewrite !(last_close_ext w w'). }
    assert (get_expected_move argsort w = get_expected_move argsort w') as Heq3.
    { unfold get_expected_move. by rewrite Hc, !(last_close_ext w w'). }
    assert (get_fair_value w = get_fair_value w') as Heq4.
    { unfold get_fair_value. by rewrite !(last_close_ext w w'). }
    rewrite Hsp, Hsp' in Heq1. rewrite Hvs, Hvs' in Heq2.
    rewrite Hem, Hem' in Heq3. rewrite Hpd, Hpd' in Heq4.
    by simplify_eq.
  - intros Hpage. unfold fetch_headlines in Hhl, Hhl'. rewrite Hpage in Hhl.
    rewrite Hhl in Hhl'. by simplify_eq.
Qed.

Lemma main_score_matches_data_witness :
  dom (data Sample.calm_report) = list_to_set html_keys
  /\ exists s10 ts em pd : float,
       data Sample.calm_report !! "spread_2s10s" = Some s10
       /\ data Sample.calm_report !! "term_structure" = Some ts
       /\ data Sample.calm_report !! "expected_move" = Some em
       /\ data Sample.calm_report !! "premium_discount" = Some pd
       /\ risk_score Sample.calm_report
          = plus_or_minus (0 <? s10)%float + plus_or_minus (0 <? ts)%float
            + plus_or_minus (em <? 5)%float + plus_or_minus (0 <? pd)%float
       /\ label Sample.calm_report = risk_label (risk_score Sample.calm_report).
Proof.
  apply (main_score_matches_data Sample.ties_first_argsort Sample.calm).
  vm_compute. reflexivity.
Defined.

Lemma main_separates_quotes_and_news_witness :
  ((forall sym, history Sample.calm sym = history Sample.other_news sym) ->
   (forall sym, option_chain Sample.calm sym = option_chain Sample.other_news sym) ->
   data Sample.calm_report = data Sample.other_news_report
   /\ risk_score Sample.calm_report = risk_score Sample.other_news_report
   /\ label Sample.calm_report = label Sample.other_news_report)
  /\ (h3_texts Sample.calm "https://finance.yahoo.com/"
      = h3_texts Sample.other_news "https://finance.yahoo.com/" ->
      headlines Sample.calm_report = headlines Sample.other_news_report).
Proof.
  apply (main_separates_quotes_and_news Sample.ties_first_argsort
           Sample.calm Sample.other_news);
    vm_compute; reflexivity.
Defined.

Example other_news_changes_only_the_headlines :
  headlines Sample.other_news_report = ["Powell speaks at noon"; "GDP beats forecasts"]
  /\ risk_score Sample.other_news_report = 4.
Proof. vm_compute. split; reflexivity. Qed.

End MainMore.



(** ** The HTML generator *)

Section HtmlMore.

Context (fm : formats).

Lemma bind_Got {A B : Type} (a : A) (k : A -> keyed B) : (Got a ≫= k) = k a.
Proof. reflexivity. Qed.

Lemma append_assoc_string (a b c : string) : (a +:+ b) +:+ c = a +:+ b +:+ c.
Proof.
  induction a as [|x a IH]; [done|]. by rewrite !append_String, IH.
Qed.

Lemma html_loop (html : string) (hls : list string) :
  foldl (fun html hl => html +:+ li hl) html hls
  = html +:+ list_items hls EmptyString.
Proof.
  unfold list_items. revert html. induction hls as [|hl hls IH]; intros html; cbn.
  - induction html as [|x html IHh]; [done|]. by rewrite append_String, <- IHh.
  - by rewrite IH, append_assoc_string.
Qed.

Lemma generate_html_all_keys (data : gmap string float) (score : Z)
    (hls : list string) :
  (forall key, key ∈ html_keys -> is_Some (data !! key)) ->
  exists html, generate_html fm data score hls = Got html.
Proof.
  intros Hkeys. unfold generate_html, getitem.
  repeat match goal with
  | |- context [data !! ?k] =>
      destruct (Hkeys k) as [? ->]; [unfold html_keys; set_solver|];
      rewrite bind_Got
  end.
  by eexists.
Qed.

(** X12: the generator raises [KeyError] exactly when the dictionary lacks
    one of the eight keys, and the key named is the first one missing in
    the order of the template. *)
Theorem generate_html_raises_first_missing_key (data : gmap string float)
    (score : Z) (hls : list string) :
  match List.find (fun key => bool_decide (data !! key = None)) html_keys with
  | Some key => generate_html fm data score hls = KeyError key
  | None => exists html, generate_html fm data score hls = Got html
  end.
Proof.
  unfold generate_html, html_keys, getitem. cbn [List.find].
  repeat match goal with
  | |- context [data !! ?k] =>
      destruct (data !! k) eqn:?;
        [ rewrite bool_decide_eq_false_2 by done; rewrite bind_Got
        | rewrite bool_decide_eq_true_2 by done; reflexivity ]
  end.
  by eexists.
Qed.

Lemma list_items_append (hls : list string) (rest : string) :
  list_items hls EmptyString +:+ rest = list_items hls rest.
Proof.
  unfold list_items. induction hls as [|hl hls IH]; [done|]. cbn.
  by rewrite append_assoc_string, IH.
Qed.

Lemma segment_skip (seg : string -> string) (x t : string) :
  (exists before after, t = before +:+ seg after) ->
  exists before after, x +:+ t = before +:+ seg after.
Proof.
  intros (before & after & ->). exists (x +:+ before), after.
  by rewrite append_assoc_string.
Qed.

Lemma generate_html_Got (data : gmap string float) (score : Z) (hls : list string)
    (html : string) :
  generate_html fm data score hls = Got html ->
  (exists head, forall hls', generate_html fm data score hls'
                             = Got (head +:+ list_items hls' closing))
  /\ exists before after, html = before +:+ score_line score after.
Proof.
  unfold generate_html, getitem.
  repeat match goal with
  | |- context [data !! ?k] =>
      destruct (data !! k) eqn:?; [rewrite bind_Got | done]
  end.
  cbn [mbind keyed_bind]. intros [= <-]. split.
  - match goal with
    | |- exists head, forall hls', Got (foldl _ ?t _ +:+ _) = _ => exists t
    end.
    intros hls'. rewrite html_loop, append_assoc_string, list_items_append.
    reflexivity.
  - rewrite html_loop, !append_assoc_string.
    repeat lazymatch goal with
    | |- exists before after, "    <p><strong>Risk Score: " +:+ _ = _ =>
        exists EmptyString; eexists; reflexivity
    | |- exists before after, _ +:+ _ = _ =>
        apply (segment_skip (score_line score))
    end.
Qed.

(** X13: the headlines only fill the list at the end of the document: the
    text before it does not depend on them, each headline is written as it
    is between [<li>] and [</li>], in order and without escaping, and the
    fixed closing tags follow. *)
Theorem generate_html_lists_headlines_verbatim (data : gmap string float)
    (score : Z) :
  (exists key, forall hls, generate_html fm data score hls = KeyError key)
  \/ (exists head, forall hls,
        generate_html fm data score hls = Got (head +:+ list_items hls closing)).
Proof.
  destruct (generate_html fm data score []) as [html|key] eqn:Hgen.
  - right. by apply generate_html_Got in Hgen as [? _].
  - left. exists key. intros hls. revert Hgen. unfold generate_html, getitem.
    repeat match goal with
    | |- context [data !! ?k] =>
        destruct (data !! k) eqn:?; [rewrite bind_Got | done]
    end.
    done.
Qed.

(** X14: on what [main] hands over, the generator never raises [KeyError],
    and the document holds the score line with the score and its label,
    which is Risk-On exactly when the score is at least 2. *)
Theorem generate_html_after_main (argsort : list float -> list nat)
    (w : Upstream.t) (r : report) :
  main argsort w = Ok r ->
  exists html before after,
    generate_html fm (data r) (risk_score r) (headlines r) = Got html
    /\ html = before +:+ score_line (risk_score r) after
    /\ (risk_label (risk_score r) = "Risk-On" <-> 2 <= risk_score r).
Proof.
  intros Hmain.
  assert (risk_label (risk_score r) = "Risk-On" <-> 2 <= risk_score r) as Hlabel.
  { apply main_ok_report in Hmain
      as ([s5 s10] & [[v v9] ts] & em & atm & pd & hls & _ & _ & _ & _ & _ & ->).
    cbn [risk_score]. unfold risk_label, risk_meter.
    destruct (0 <? s10)%float, (0 <? ts)%float, (em <? 5)%float, (0 <? pd)%float;
      cbn; split; (done || lia). }
  revert Hlabel. generalize (risk_label (risk_score r) = "Risk-On" <-> 2 <= risk_score r).
  intros claim Hlabel.
  destruct (generate_html_all_keys (data r) (risk_score r) (headlines r))
    as [html Hgen].
  { apply main_ok_report in Hmain
      as (sp & vs & em & atm & pd & hls & _ & _ & _ & _ & _ & ->).
    cbn [data]. intros key Hkey. unfold html_keys in Hkey.
    repeat (apply elem_of_cons in Hkey as [-> | Hkey]; [by simplify_map_eq|]).
    by apply elem_of_nil in Hkey. }
  exists html.
  destruct (generate_html_Got _ _ _ _ Hgen) as [_ (before & after & ->)].
  exists before, after. split; [done|]. split; [done|]. exact Hlabel.
Qed.

End HtmlMore.

Lemma generate_html_after_main_witness :
  exists html before after,
    generate_html Sample.fixed_formats (data Sample.calm_report)
      (risk_score Sample.calm_report) (headlines Sample.calm_report) = Got html
    /\ html = before +:+ score_line (risk_score Sample.calm_report) after
    /\ (risk_label (risk_score Sample.calm_report) = "Risk-On"
        <-> 2 <= risk_score Sample.calm_report).
Proof.
  apply (generate_html_after_main Sample.fixed_formats Sample.ties_first_argsort
           Sample.calm).
  vm_compute. reflexivity.
Defined.

Example generate_html_without_a_key :
  generate_html Sample.fixed_formats (delete "vix9d" (data Sample.calm_report)) 4 []
  = KeyError "vix9d".
Proof. vm_compute. reflexivity. Qed.

